(** * MeTube: [add_files_to_xcode.py]

    A shallow embedding of the helper script that reports on the Swift files
    to be added to [MeTube.xcodeproj], together with the properties of its
    control flow, its output and its effects.

    Conventions of the embedding.
    - Python [str] values are [string]s holding the UTF-8 encoding of the
      text, so the marks [✓], [✗], [❌] and [⚠️] are short byte sequences.
    - The interpreter's surroundings are a record [World]: the value of
      [sys.platform], the entries of the working directory, the text written
      to standard output so far, and the log of the external effects performed
      so far.
    - Statements are computations in the monad [M]; a [return] in the middle
      of [main] ends the computation on that path.
    - [main] writes to a stream that takes every text; [main_on] is the same
      function on a stream with a codec, where [print] can raise.
    - The entries of [World] are what the paths resolve to; [stat_view]
      obtains them from a listing with symbolic links. *)

From Stdlib Require Import Ascii.
From stdpp Require Import base option list strings gmap.

(** ** Strings *)

(** The line terminator written by [print] (its default [end]). *)
Definition newline_char : ascii := Ascii.ascii_of_nat 10.
Definition newline : string := String newline_char EmptyString.

(** [s * n] on Python strings. *)
Fixpoint str_mul (s : string) (n : nat) : string :=
  match n with
  | O => ""
  | S k => s +:+ str_mul s k
  end.

(** ** The world the script runs in *)

(** What a path of the working directory resolves to ([os.stat] follows
    symbolic links, so a dangling link is an absent entry). *)
Inductive node : Type :=
  | RegularFile
  | Directory.

(** External effects a Python process may perform.  [EvSpawn] is what a call
    into the imported [subprocess] module would log, [EvFsWrite] what creating,
    writing, deleting or renaming a file would. *)
Inductive event : Type :=
  | EvStdout (data : string)
  | EvExists (path : string) (answer : bool)
  | EvFsWrite (path : string)
  | EvSpawn (argv : list string).

Record World : Type := mkWorld {
  platform : string;
  fs : gmap string node;
  stdout : string;
  trace : list event
}.

(** Python exceptions that reach the top level. *)
Inductive exn : Type :=
  | FileNotFoundError (path : string)
  | UnicodeEncodeError (text : string).

Inductive outcome (A : Type) : Type :=
  | Returned (a : A) (w : World)
  | Raised (e : exn) (w : World).
Arguments Returned {A} a w.
Arguments Raised {A} e w.

Definition M (A : Type) : Type := World -> outcome A.

#[global] Instance M_ret : MRet M := fun A (a : A) w => Returned a w.

#[global] Instance M_bind : MBind M := fun A B (k : A -> M B) (m : M A) w =>
  match m w with
  | Returned a w' => k a w'
  | Raised e w' => Raised e w'
  end.

(** The world an outcome ends in. *)
Definition final {A} (o : outcome A) : World :=
  match o with
  | Returned _ w => w
  | Raised _ w => w
  end.

(** ** Primitives used by the script *)

(** [sys.platform]: an attribute of the [sys] module, no external effect. *)
Definition sys_platform : M string := fun w => Returned (platform w) w.

(** [os.path.exists(path)]: true for any entry the path resolves to, whatever
    its kind; the query is logged, the file system is not touched. *)
Definition os_path_exists (path : string) : M bool := fun w =>
  let answer := bool_decide (is_Some (fs w !! path)) in
  Returned answer
    (mkWorld (platform w) (fs w) (stdout w) (trace w ++ [EvExists path answer])).

(** [print(s)]: writes [s] and a line terminator to standard output, on a
    stream that takes the text; [print_on] below is [print] on a stream that
    may refuse it. *)
Definition print (s : string) : M unit := fun w =>
  let data := s +:+ newline in
  Returned tt
    (mkWorld (platform w) (fs w) (stdout w +:+ data) (trace w ++ [EvStdout data])).

(** Two members of the imported modules that change the world; [main] calls
    neither.  [subprocess.run(argv)] starts a process; [os.remove(path)]
    deletes an entry and raises when there is none. *)
Definition subprocess_run (argv : list string) : M unit := fun w =>
  Returned tt
    (mkWorld (platform w) (fs w) (stdout w) (trace w ++ [EvSpawn argv])).

Definition os_remove (path : string) : M unit := fun w =>
  match fs w !! path with
  | None => Raised (FileNotFoundError path) w
  | Some _ =>
      Returned tt
        (mkWorld (platform w) (delete path (fs w)) (stdout w)
           (trace w ++ [EvFsWrite path]))
  end.

(** [for x in xs: body(x)]. *)
Fixpoint for_each {A} (xs : list A) (body : A -> M unit) : M unit :=
  match xs with
  | [] => mret tt
  | x :: rest => body x ;; for_each rest body
  end.

(** ** The script *)

(** List of new files to add (relative to project root). *)
Definition NEW_FILES : list string :=
  [ "MeTube/Models/Persistence/VideoEntity.swift";
    "MeTube/Models/Persistence/ChannelEntity.swift";
    "MeTube/Models/Persistence/StatusEntity.swift";
    "MeTube/Repositories/VideoRepository.swift";
    "MeTube/Repositories/StatusRepository.swift";
    "MeTube/Repositories/ChannelRepository.swift";
    "MeTube/Services/Sync/HubSyncManager.swift";
    "MeTube/Services/Sync/StatusSyncManager.swift";
    "MeTube/Models/ModelConverters.swift" ].

(** The three places where [main] ends: the [return] closing the platform
    branch, the [return] closing the missing-project branch, and the end of
    the function body. *)
Inductive terminal : Type :=
  | InstructionsOnly
  | MissingProject
  | ReportEmitted.

Definition main : M terminal :=
  print (str_mul "=" 60) ;;
  print "MeTube Xcode Project File Adder" ;;
  print (str_mul "=" 60) ;;
  print "" ;;
  print "This script needs to be run on a Mac with Xcode installed." ;;
  print "It will add the new Swift files to MeTube.xcodeproj" ;;
  print "" ;;
  (* Check if we're on a Mac *)
  plat ← sys_platform;
  if negb (String.eqb plat "darwin") then
    print "⚠️  This script should be run on macOS with Xcode installed." ;;
    print "" ;;
    print "Manual steps required:" ;;
    print "1. Open MeTube.xcodeproj in Xcode" ;;
    print "2. Right-click on each folder and select 'Add Files to MeTube...'" ;;
    print "3. Add these new files:" ;;
    for_each NEW_FILES (fun file => print ("   - " +:+ file));;
    print "" ;;
    mret InstructionsOnly
  else
    (* Check if project file exists *)
    found ← os_path_exists "MeTube.xcodeproj";
    if negb found then
      print "❌ MeTube.xcodeproj not found in current directory" ;;
      print "Please run this script from the repository root" ;;
      mret MissingProject
    else
      print "The following files will be added to the Xcode project:" ;;
      for_each NEW_FILES (fun file =>
        present ← os_path_exists file;
        let exists_ : string := if (present : bool) then "✓" else "✗" in
        print ("  " +:+ exists_ +:+ " " +:+ file)) ;;
      print "" ;;
      print "To add these files to Xcode:" ;;
      print "1. Open MeTube.xcodeproj in Xcode" ;;
      print "2. In the Project Navigator, locate these folders:" ;;
      print "   - Models (add Persistence folder with entities)" ;;
      print "   - Services (add Sync folder with managers)" ;;
      print "   - Create 'Repositories' group if needed" ;;
      print "3. Drag and drop or use 'Add Files to MeTube...'" ;;
      print "4. Ensure files are added to the MeTube target" ;;
      print "" ;;
      print "Or use a tool like xcodegen to regenerate the project file" ;;
      mret ReportEmitted.

(** A fresh process: nothing written, nothing logged. *)
Definition boot (sys_platform_value : string) (cwd : gmap string node) : World :=
  mkWorld sys_platform_value cwd "" [].

Definition run (sys_platform_value : string) (cwd : gmap string node)
  : outcome terminal :=
  main (boot sys_platform_value cwd).

(** ** Reading the output back *)

(** The text written since the start, cut at line terminators (as
    [str.splitlines] does for this terminator). *)
Fixpoint lines (s : string) : list string :=
  match s with
  | EmptyString => []
  | String c rest =>
      if Ascii.eqb c newline_char then "" :: lines rest
      else match lines rest with
           | [] => [String c ""]
           | l :: ls => String c l :: ls
           end
  end.

Definition output {A} (o : outcome A) : list string := lines (stdout (final o)).
Definition effects {A} (o : outcome A) : list event := trace (final o).

(** [needle in hay] on Python strings. *)
Fixpoint contains (needle hay : string) : bool :=
  String.prefix needle hay ||
  match hay with
  | EmptyString => false
  | String _ rest => contains needle rest
  end.

(** [line.removeprefix(p)] when [line] starts with [p]. *)
Fixpoint strip_prefix (p line : string) : option string :=
  match p, line with
  | EmptyString, _ => Some line
  | String a p', String b line' =>
      if Ascii.eqb a b then strip_prefix p' line' else None
  | String _ _, EmptyString => None
  end.

(** [line.endswith(suffix)]. *)
Definition ends_with (suffix line : string) : bool :=
  String.prefix (String.rev suffix) (String.rev line).

(** ** What a run is expected to write and to do

    The lines and the effects of each path through [main], as functions of the
    two decisions and of the entries of the working directory.  [main_emits]
    below proves that [main] produces exactly these. *)

Definition exists_in (cwd : gmap string node) (path : string) : bool :=
  bool_decide (is_Some (cwd !! path)).

Definition unlines (ls : list string) : string :=
  foldr (fun l acc => (l +:+ newline) +:+ acc) "" ls.

Definition banner_lines : list string :=
  [ str_mul "=" 60;
    "MeTube Xcode Project File Adder";
    str_mul "=" 60 ].

Definition intro_lines : list string :=
  [ "";
    "This script needs to be run on a Mac with Xcode installed.";
    "It will add the new Swift files to MeTube.xcodeproj";
    "" ].

Definition listing_line (file : string) : string := "   - " +:+ file.

Definition manual_lines : list string :=
  [ "⚠️  This script should be run on macOS with Xcode installed.";
    "";
    "Manual steps required:";
    "1. Open MeTube.xcodeproj in Xcode";
    "2. Right-click on each folder and select 'Add Files to MeTube...'";
    "3. Add these new files:" ]
  ++ map listing_line NEW_FILES ++ [ "" ].

Definition not_found_message : string :=
  "❌ MeTube.xcodeproj not found in current directory".

Definition missing_lines : list string :=
  [ not_found_message;
    "Please run this script from the repository root" ].

Definition marker (present : bool) : string := if present then "✓" else "✗".

Definition report_line (cwd : gmap string node) (file : string) : string :=
  "  " +:+ marker (exists_in cwd file) +:+ " " +:+ file.

Definition report_header : list string :=
  [ "The following files will be added to the Xcode project:" ].

Definition report_footer : list string :=
  [ "";
    "To add these files to Xcode:";
    "1. Open MeTube.xcodeproj in Xcode";
    "2. In the Project Navigator, locate these folders:";
    "   - Models (add Persistence folder with entities)";
    "   - Services (add Sync folder with managers)";
    "   - Create 'Repositories' group if needed";
    "3. Drag and drop or use 'Add Files to MeTube...'";
    "4. Ensure files are added to the MeTube target";
    "";
    "Or use a tool like xcodegen to regenerate the project file" ].

Definition report_lines (cwd : gmap string node) : list string :=
  report_header ++ map (report_line cwd) NEW_FILES ++ report_footer.

Definition on_mac (pl : string) : bool := String.eqb pl "darwin".

Definition main_terminal (pl : string) (cwd : gmap string node) : terminal :=
  if on_mac pl then
    if exists_in cwd "MeTube.xcodeproj" then ReportEmitted else MissingProject
  else InstructionsOnly.

Definition branch_lines (pl : string) (cwd : gmap string node) : list string :=
  match main_terminal pl cwd with
  | InstructionsOnly => manual_lines
  | MissingProject => missing_lines
  | ReportEmitted => report_lines cwd
  end.

Definition main_lines (pl : string) (cwd : gmap string node) : list string :=
  banner_lines ++ intro_lines ++ branch_lines pl cwd.

Definition query (cwd : gmap string node) (path : string) : event :=
  EvExists path (exists_in cwd path).

Definition written (l : string) : event := EvStdout (l +:+ newline).

Definition branch_events (pl : string) (cwd : gmap string node) : list event :=
  match main_terminal pl cwd with
  | InstructionsOnly => map written manual_lines
  | MissingProject =>
      query cwd "MeTube.xcodeproj" :: map written missing_lines
  | ReportEmitted =>
      query cwd "MeTube.xcodeproj" :: map written report_header
      ++ flat_map (fun f => [query cwd f; written (report_line cwd f)]) NEW_FILES
      ++ map written report_footer
  end.

Definition main_events (pl : string) (cwd : gmap string node) : list event :=
  map written (banner_lines ++ intro_lines) ++ branch_events pl cwd.

(** ** Vocabulary of the properties *)

Definition newline_free (s : string) : bool := negb (contains newline s).

(** [emits pl cwd m a ls evs]: on platform [pl] in directory [cwd], whatever
    was written and logged before, [m] returns [a], leaves platform and
    directory as they are, appends the lines [ls] to standard output and the
    events [evs] to the log. *)
Definition emits (pl : string) (cwd : gmap string node) {A} (m : M A) (a : A)
    (ls : list string) (evs : list event) : Prop :=
  forall out tr,
    m (mkWorld pl cwd out tr)
    = Returned a (mkWorld pl cwd (out +:+ unlines ls) (tr ++ evs)).


(** A line of the per-file existence report carries one of the two marks. *)
Definition has_marker (line : string) : bool :=
  contains "✓" line || contains "✗" line.

(** The paths behind the listing marker, in the order of the lines. *)
Definition listed_paths (ls : list string) : list string :=
  omap (strip_prefix "   - ") ls.

Definition is_stdout_write (e : event) : bool :=
  match e with EvStdout _ => true | _ => false end.

Definition is_exists_query (e : event) : bool :=
  match e with EvExists _ _ => true | _ => false end.

(** The query that decides between the missing-project and the report path. *)
Definition is_gate_query (e : event) : bool :=
  match e with
  | EvExists path _ => String.eqb path "MeTube.xcodeproj"
  | _ => false
  end.

(** Sample working directories: a checkout holding the project directory and
    one of the new files; a directory where [MeTube.xcodeproj] is a regular
    file; the same with a directory of that name. *)
Definition partial_checkout : gmap string node :=
  {[ "MeTube.xcodeproj" := Directory;
     "MeTube/Models/ModelConverters.swift" := RegularFile ]}.

Definition project_as_file : gmap string node :=
  {[ "MeTube.xcodeproj" := RegularFile ]}.

Definition project_as_directory : gmap string node :=
  {[ "MeTube.xcodeproj" := Directory ]}.

(** The existence queries of a log, each with its answer, in order. *)
Definition queries (evs : list event) : list (string * bool) :=
  omap (fun e =>
          match e with
          | EvExists path answer => Some (path, answer)
          | _ => None
          end) evs.

(** ** The standard output stream

    [sys.stdout] encodes what it is given with the codec of the stream and the
    [strict] error handler: a text the codec cannot encode makes the write, and
    so [print], raise [UnicodeEncodeError], with nothing of that text written.
    Two codecs are modelled: UTF-8, which encodes every text, and ASCII (as
    under [PYTHONIOENCODING=ascii]), which encodes the texts whose code points
    are all below 128, that is, whose UTF-8 bytes are. *)

Inductive codec : Type :=
  | CodecUtf8
  | CodecAscii.

Fixpoint all_ascii (s : string) : bool :=
  match s with
  | EmptyString => true
  | String ch rest => Nat.ltb (nat_of_ascii ch) 128 && all_ascii rest
  end.

Definition encodable (c : codec) (s : string) : bool :=
  match c with
  | CodecUtf8 => true
  | CodecAscii => all_ascii s
  end.

(** [print(s)] on a stream with codec [c]. *)
Definition print_on (c : codec) (s : string) : M unit := fun w =>
  if encodable c s then print s w else Raised (UnicodeEncodeError s) w.

(** [main] on a stream with codec [c]: the same statements, each [print]
    going through the stream. *)
Definition main_on (c : codec) : M terminal :=
  print_on c (str_mul "=" 60) ;;
  print_on c "MeTube Xcode Project File Adder" ;;
  print_on c (str_mul "=" 60) ;;
  print_on c "" ;;
  print_on c "This script needs to be run on a Mac with Xcode installed." ;;
  print_on c "It will add the new Swift files to MeTube.xcodeproj" ;;
  print_on c "" ;;
  (* Check if we're on a Mac *)
  plat ← sys_platform;
  if negb (String.eqb plat "darwin") then
    print_on c "⚠️  This script should be run on macOS with Xcode installed." ;;
    print_on c "" ;;
    print_on c "Manual steps required:" ;;
    print_on c "1. Open MeTube.xcodeproj in Xcode" ;;
    print_on c "2. Right-click on each folder and select 'Add Files to MeTube...'" ;;
    print_on c "3. Add these new files:" ;;
    for_each NEW_FILES (fun file => print_on c ("   - " +:+ file));;
    print_on c "" ;;
    mret InstructionsOnly
  else
    (* Check if project file exists *)
    found ← os_path_exists "MeTube.xcodeproj";
    if negb found then
      print_on c "❌ MeTube.xcodeproj not found in current directory" ;;
      print_on c "Please run this script from the repository root" ;;
      mret MissingProject
    else
      print_on c "The following files will be added to the Xcode project:" ;;
      for_each NEW_FILES (fun file =>
        present ← os_path_exists file;
        let exists_ : string := if (present : bool) then "✓" else "✗" in
        print_on c ("  " +:+ exists_ +:+ " " +:+ file)) ;;
      print_on c "" ;;
      print_on c "To add these files to Xcode:" ;;
      print_on c "1. Open MeTube.xcodeproj in Xcode" ;;
      print_on c "2. In the Project Navigator, locate these folders:" ;;
      print_on c "   - Models (add Persistence folder with entities)" ;;
      print_on c "   - Services (add Sync folder with managers)" ;;
      print_on c "   - Create 'Repositories' group if needed" ;;
      print_on c "3. Drag and drop or use 'Add Files to MeTube...'" ;;
      print_on c "4. Ensure files are added to the MeTube target" ;;
      print_on c "" ;;
      print_on c "Or use a tool like xcodegen to regenerate the project file" ;;
      mret ReportEmitted.


(** ** Directory entries and what they resolve to

    The working directory as [os.lstat] sees it: an entry is a file, a
    directory, or a symbolic link with its target (a path from the working
    directory).  [os.stat], which [os.path.exists] asks, follows links, up to
    the limit of the system ([MAXSYMLINKS], 32 on [darwin]); a link whose
    chain ends nowhere, or is longer than the limit, resolves to nothing. *)

Inductive dirent : Type :=
  | EntFile
  | EntDir
  | EntLink (target : string).

Definition MAXSYMLINKS : nat := 32.

Fixpoint os_stat (hops : nat) (d : gmap string dirent) (path : string)
  : option node :=
  match d !! path with
  | None => None
  | Some EntFile => Some RegularFile
  | Some EntDir => Some Directory
  | Some (EntLink target) =>
      match hops with
      | O => None
      | S k => os_stat k d target
      end
  end.

(** The entries of [World]: for each path, what it resolves to when at most
    [max_links] links are followed. *)
Definition stat_view (max_links : nat) (d : gmap string dirent)
  : gmap string node :=
  map_imap (fun path _ => os_stat max_links d path) d.

(** Sample listings: [MeTube.xcodeproj] as a regular file, as a link to a
    regular file, and as a link whose target is gone. *)
Definition project_entry_file : gmap string dirent :=
  {[ "MeTube.xcodeproj" := EntFile ]}.

Definition project_entry_link : gmap string dirent :=
  {[ "MeTube.xcodeproj" := EntLink "backup.xcodeproj";
     "backup.xcodeproj" := EntFile ]}.

Definition project_entry_dangling : gmap string dirent :=
  {[ "MeTube.xcodeproj" := EntLink "backup.xcodeproj" ]}.

(** ** Facts about strings and lines *)

Lemma str_app_nil_r (s : string) : s +:+ "" = s.
Proof. induction s as [|c s IH]; [done|]. by rewrite <-IH at 2. Qed.

Lemma str_app_assoc (a b c : string) : (a +:+ b) +:+ c = a +:+ (b +:+ c).
Proof.
  induction a as [|x a IH]; [done|].
  change (String x ((a +:+ b) +:+ c) = String x (a +:+ (b +:+ c))).
  by rewrite IH.
Qed.

Lemma unlines_app (xs ys : list string) :
  unlines (xs ++ ys) = unlines xs +:+ unlines ys.
Proof.
  induction xs as [|x xs IH]; [done|].
  change (unlines ((x :: xs) ++ ys)) with ((x +:+ newline) +:+ unlines (xs ++ ys)).
  change (unlines (x :: xs)) with ((x +:+ newline) +:+ unlines xs).
  by rewrite IH, !str_app_assoc.
Qed.

Lemma lines_line_app (l rest : string) :
  newline_free l = true ->
  lines ((l +:+ newline) +:+ rest) = l :: lines rest.
Proof.
  induction l as [|c l IH]; intros Hl; [reflexivity|].
  unfold newline_free in Hl. cbn [contains] in Hl.
  apply negb_true_iff, orb_false_iff in Hl as [Hc Hl].
  change ((String c l +:+ newline) +:+ rest)
    with (String c ((l +:+ newline) +:+ rest)).
  cbn [lines]. rewrite IH by (unfold newline_free; by rewrite Hl).
  destruct (Ascii.eqb c newline_char) eqn:E; [|done].
  apply Ascii.eqb_eq in E. subst c. by destruct l.
Qed.

Lemma lines_unlines (ls : list string) :
  Forall (fun l => newline_free l = true) ls -> lines (unlines ls) = ls.
Proof.
  induction 1 as [|l ls Hl _ IH]; [done|].
  change (unlines (l :: ls)) with ((l +:+ newline) +:+ unlines ls).
  by rewrite lines_line_app, IH.
Qed.

(** ** Stepping through [main] *)

Section Emits.
Context (pl : string) (cwd : gmap string node).
Local Abbreviation emits := (emits pl cwd).

Lemma emits_ret {A} (a : A) : emits (mret a) a [] [].
Proof.
  intros out tr. cbv [mret M_ret]. cbn [unlines foldr].
  by rewrite str_app_nil_r, app_nil_r.
Qed.

Lemma emits_bind {A B} (m : M A) (k : A -> M B) a b l1 e1 l2 e2 :
  emits m a l1 e1 -> emits (k a) b l2 e2 ->
  emits (m ≫= k) b (l1 ++ l2) (e1 ++ e2).
Proof.
  intros Hm Hk out tr. cbv [mbind M_bind].
  by rewrite Hm, Hk, unlines_app, str_app_assoc, app_assoc.
Qed.

Lemma emits_print (s : string) : emits (print s) tt [s] [written s].
Proof.
  intros out tr. cbv [print written platform fs stdout trace].
  cbn [unlines foldr]. by rewrite str_app_nil_r.
Qed.

Lemma emits_sys_platform : emits sys_platform pl [] [].
Proof.
  intros out tr. cbv [sys_platform platform]. cbn [unlines foldr].
  by rewrite str_app_nil_r, app_nil_r.
Qed.

Lemma emits_os_path_exists (path : string) :
  emits (os_path_exists path) (exists_in cwd path) [] [query cwd path].
Proof.
  intros out tr. cbv [os_path_exists platform fs stdout trace query].
  cbn [unlines foldr]. by rewrite str_app_nil_r.
Qed.

Lemma emits_for_each {A} (xs : list A) (body : A -> M unit)
    (L : A -> list string) (E : A -> list event) :
  (forall x, emits (body x) tt (L x) (E x)) ->
  emits (for_each xs body) tt (flat_map L xs) (flat_map E xs).
Proof.
  intros Hbody. induction xs as [|x xs IH].
  - apply emits_ret.
  - cbn [for_each flat_map]. eapply emits_bind; [apply Hbody | exact IH].
Qed.

Lemma emits_eq {A} (m : M A) a ls evs ls' evs' :
  emits m a ls evs -> ls = ls' -> evs = evs' -> emits m a ls' evs'.
Proof. by intros H <- <-. Qed.
End Emits.

Ltac emits_run :=
  lazymatch goal with
  | |- emits _ _ (_ ≫= _) _ _ _ =>
      eapply emits_bind; [emits_run | cbv beta zeta; emits_run]
  | |- emits _ _ (print _) _ _ _ => apply emits_print
  | |- emits _ _ sys_platform _ _ _ => apply emits_sys_platform
  | |- emits _ _ (os_path_exists _) _ _ _ => apply emits_os_path_exists
  | |- emits _ _ (mret _) _ _ _ => apply emits_ret
  | |- emits _ _ (for_each _ _) _ _ _ =>
      eapply emits_for_each; intros ?; cbv beta; emits_run
  | |- emits _ _ (if negb ?b then _ else _) _ _ _ =>
      lazymatch goal with
      | H : b = _ |- _ => rewrite H; cbn [negb]; emits_run
      end
  end.

Lemma main_emits (pl : string) (cwd : gmap string node) :
  emits pl cwd main (main_terminal pl cwd) (main_lines pl cwd) (main_events pl cwd).
Proof.
  unfold main, main_lines, main_events, branch_lines, branch_events, main_terminal,
    on_mac.
  destruct (String.eqb pl "darwin") eqn:Hpl;
    [destruct (exists_in cwd "MeTube.xcodeproj") eqn:Hproj|];
    (eapply emits_eq; [emits_run | reflexivity | reflexivity]).
Qed.

(** ** Whole runs *)

Lemma main_eq (w : World) :
  main w
  = Returned (main_terminal (platform w) (fs w))
      (mkWorld (platform w) (fs w)
         (stdout w +:+ unlines (main_lines (platform w) (fs w)))
         (trace w ++ main_events (platform w) (fs w))).
Proof. destruct w as [pl cwd out tr]. apply main_emits. Qed.

Lemma run_eq (pl : string) (cwd : gmap string node) :
  run pl cwd
  = Returned (main_terminal pl cwd)
      (mkWorld pl cwd (unlines (main_lines pl cwd)) (main_events pl cwd)).
Proof. unfold run, boot. by rewrite main_eq. Qed.

Ltac each_line :=
  repeat first [apply Forall_nil_2 | apply Forall_cons_2].

Lemma report_line_newline_free (cwd : gmap string node) :
  Forall (fun f => newline_free (report_line cwd f) = true) NEW_FILES.
Proof.
  unfold NEW_FILES, report_line. each_line;
    by destruct (exists_in cwd _).
Qed.

Lemma main_lines_newline_free (pl : string) (cwd : gmap string node) :
  Forall (fun l => newline_free l = true) (main_lines pl cwd).
Proof.
  unfold main_lines, branch_lines.
  repeat apply Forall_app_2; [by each_line..|].
  destruct (main_terminal pl cwd); [by each_line..|].
  unfold report_lines. repeat apply Forall_app_2; [by each_line| |by each_line].
  apply Forall_fmap, report_line_newline_free.
Qed.

Lemma output_run (pl : string) (cwd : gmap string node) :
  output (run pl cwd) = main_lines pl cwd.
Proof.
  rewrite run_eq. unfold output. cbn [final stdout].
  apply lines_unlines, main_lines_newline_free.
Qed.

Lemma effects_run (pl : string) (cwd : gmap string node) :
  effects (run pl cwd) = main_events pl cwd.
Proof. by rewrite run_eq. Qed.

Lemma on_mac_darwin (pl : string) : on_mac pl = bool_decide (pl = "darwin").
Proof.
  unfold on_mac. destruct (String.eqb_spec pl "darwin") as [->|Hne]; [done|].
  by rewrite bool_decide_eq_false_2.
Qed.

Lemma main_terminal_cases (pl : string) (cwd : gmap string node) :
  main_terminal pl cwd
  = match bool_decide (pl = "darwin"), exists_in cwd "MeTube.xcodeproj" with
    | false, _ => InstructionsOnly
    | true, false => MissingProject
    | true, true => ReportEmitted
    end.
Proof. unfold main_terminal. rewrite on_mac_darwin. by case_bool_decide. Qed.

Lemma main_terminal_not_darwin (pl : string) (cwd : gmap string node) :
  pl <> "darwin" -> main_terminal pl cwd = InstructionsOnly.
Proof.
  intros Hne. rewrite main_terminal_cases. by rewrite bool_decide_eq_false_2.
Qed.

Lemma filter_all {A} (p : A -> bool) (xs : list A) :
  Forall (fun x => p x = true) xs -> List.filter p xs = xs.
Proof.
  induction 1 as [|x xs Hx _ IH]; [done|]. cbn [List.filter]. by rewrite Hx, IH.
Qed.

Lemma filter_map_eqb {A} (p : A -> bool) (h : string -> A) (f : string)
    (xs : list string) :
  Forall (fun g => p (h g) = String.eqb f g) xs ->
  List.filter p (map h xs) = map h (List.filter (String.eqb f) xs).
Proof.
  induction 1 as [|g xs Hg _ IH]; [done|].
  cbn [map List.filter]. rewrite Hg, IH. by destruct (String.eqb f g).
Qed.

(** The two unused members of the imported modules do change the world, so
    the frame properties below are not empty: [os.remove] drops an entry and
    raises on a missing one, [subprocess.run] logs a started process. *)
Example os_remove_changes_fs :
  fs (final (os_remove "MeTube.xcodeproj" (boot "darwin" project_as_file))) = ∅
  /\ os_remove "MeTube.xcodeproj" (boot "darwin" ∅)
     = Raised (FileNotFoundError "MeTube.xcodeproj") (boot "darwin" ∅).
Proof. split; vm_compute; reflexivity. Qed.

Example subprocess_run_spawns :
  effects (subprocess_run ["xcodegen"] (boot "darwin" ∅))
  = [EvSpawn ["xcodegen"]].
Proof. reflexivity. Qed.

Example lines_splits_at_terminators :
  lines ("ab" +:+ newline +:+ newline +:+ "cd" +:+ newline) = ["ab"; ""; "cd"].
Proof. reflexivity. Qed.

(** ** Properties of the script *)

(** C1. Whatever the platform identifier and the entries of the working
    directory, a run of [main] ends in exactly one terminal state, fixed by
    the two tests: not on [darwin], instructions only; on [darwin] without an
    entry [MeTube.xcodeproj], missing project; on [darwin] with that entry,
    report emitted.  Nothing is repeated: the gate is queried once on
    [darwin] and never elsewhere, and the title line is written once. *)
Theorem main_terminal_state_determined (pl : string) (cwd : gmap string node) :
  let expected :=
    match bool_decide (pl = "darwin"),
          bool_decide (is_Some (cwd !! "MeTube.xcodeproj")) with
    | false, _ => InstructionsOnly
    | true, false => MissingProject
    | true, true => ReportEmitted
    end in
  (exists w', run pl cwd = Returned expected w')
  /\ (forall t w', run pl cwd = Returned t w' -> t = expected)
  /\ length (List.filter is_gate_query (effects (run pl cwd)))
     = (if bool_decide (pl = "darwin") then 1 else 0)
  /\ length (List.filter (String.eqb "MeTube Xcode Project File Adder")
               (output (run pl cwd))) = 1.
Proof.
  intros expected.
  assert (Ht : main_terminal pl cwd = expected) by apply main_terminal_cases.
  repeat split.
  - eexists. rewrite run_eq. by rewrite Ht.
  - intros t w' Hrun. rewrite run_eq in Hrun. congruence.
  - rewrite effects_run. unfold main_events, branch_events.
    rewrite main_terminal_cases.
    case_bool_decide; [destruct (exists_in cwd "MeTube.xcodeproj")|];
      reflexivity.
  - rewrite output_run. unfold main_lines, branch_lines.
    destruct (main_terminal pl cwd); reflexivity.
Qed.

Lemma main_terminal_report (cwd : gmap string node) :
  is_Some (cwd !! "MeTube.xcodeproj") ->
  main_terminal "darwin" cwd = ReportEmitted.
Proof.
  intros Hproj. unfold main_terminal, exists_in.
  by rewrite bool_decide_eq_true_2.
Qed.

Lemma main_terminal_missing (cwd : gmap string node) :
  cwd !! "MeTube.xcodeproj" = None ->
  main_terminal "darwin" cwd = MissingProject.
Proof.
  intros Hproj. unfold main_terminal, exists_in. by rewrite Hproj.
Qed.

Lemma ends_with_report_line (cwd : gmap string node) (f : string) :
  f ∈ NEW_FILES ->
  Forall (fun g => ends_with f (report_line cwd g) = String.eqb f g) NEW_FILES.
Proof.
  intros Hf. unfold NEW_FILES in *.
  repeat (apply elem_of_cons in Hf as [->|Hf]);
    try (by apply elem_of_nil in Hf);
    each_line; unfold report_line; by destruct (exists_in cwd _).
Qed.

Lemma has_marker_report_line (cwd : gmap string node) :
  Forall (fun g => has_marker (report_line cwd g) = true) NEW_FILES.
Proof.
  unfold NEW_FILES, report_line. each_line; by destruct (exists_in cwd _).
Qed.

(** C2. On [darwin] with an entry [MeTube.xcodeproj] present, the output has
    exactly one line for each entry of [NEW_FILES]: the line that ends with
    the path is the path behind [✓] when [os.path.exists] holds of it and
    behind [✗] otherwise; and the marked lines of the output are these, one
    per entry. *)
Theorem report_one_line_per_entry (cwd : gmap string node) :
  is_Some (cwd !! "MeTube.xcodeproj") ->
  (forall f, f ∈ NEW_FILES ->
     List.filter (ends_with f) (output (run "darwin" cwd))
     = [ "  " +:+ (if bool_decide (is_Some (cwd !! f)) then "✓" else "✗")
         +:+ " " +:+ f ])
  /\ List.filter has_marker (output (run "darwin" cwd))
     = map (fun f =>
              "  " +:+ (if bool_decide (is_Some (cwd !! f)) then "✓" else "✗")
              +:+ " " +:+ f) NEW_FILES.
Proof.
  intros Hproj. rewrite output_run.
  unfold main_lines, branch_lines. rewrite (main_terminal_report _ Hproj).
  unfold report_lines. split.
  - intros f Hf. rewrite !List.filter_app.
    rewrite (filter_map_eqb _ _ f _ (ends_with_report_line cwd f Hf)).
    unfold NEW_FILES in Hf.
    repeat (apply elem_of_cons in Hf as [->|Hf]);
      try (by apply elem_of_nil in Hf); reflexivity.
  - rewrite !List.filter_app.
    rewrite (filter_all _ (map _ _))
      by apply Forall_fmap, has_marker_report_line.
    reflexivity.
Qed.

Lemma report_one_line_per_entry_witness :
  is_Some (partial_checkout !! "MeTube.xcodeproj")
  /\ ((forall f, f ∈ NEW_FILES ->
        List.filter (ends_with f) (output (run "darwin" partial_checkout))
        = [ "  " +:+ (if bool_decide (is_Some (partial_checkout !! f))
                      then "✓" else "✗") +:+ " " +:+ f ])
      /\ List.filter has_marker (output (run "darwin" partial_checkout))
         = map (fun f =>
                  "  " +:+ (if bool_decide (is_Some (partial_checkout !! f))
                            then "✓" else "✗") +:+ " " +:+ f) NEW_FILES).
Proof.
  assert (Hproj : is_Some (partial_checkout !! "MeTube.xcodeproj"))
    by (vm_compute; eauto).
  split; [exact Hproj|].
  exact (report_one_line_per_entry partial_checkout Hproj).
Defined.

Example partial_checkout_report :
  List.filter has_marker (output (run "darwin" partial_checkout))
  = [ "  ✗ MeTube/Models/Persistence/VideoEntity.swift";
      "  ✗ MeTube/Models/Persistence/ChannelEntity.swift";
      "  ✗ MeTube/Models/Persistence/StatusEntity.swift";
      "  ✗ MeTube/Repositories/VideoRepository.swift";
      "  ✗ MeTube/Repositories/StatusRepository.swift";
      "  ✗ MeTube/Repositories/ChannelRepository.swift";
      "  ✗ MeTube/Services/Sync/HubSyncManager.swift";
      "  ✗ MeTube/Services/Sync/StatusSyncManager.swift";
      "  ✓ MeTube/Models/ModelConverters.swift" ].
Proof. vm_compute. reflexivity. Qed.

Lemma written_not_query (ls : list string) (path : string) (answer : bool) :
  EvExists path answer ∉ map written ls.
Proof.
  intros Hin. apply list_elem_of_fmap_1 in Hin as (l & Heq & _). discriminate.
Qed.

(** C3. On any platform other than [darwin], the output has, for every path
    of [NEW_FILES], the line made of the listing marker and the path, and the
    run asks [os.path.exists] nothing: neither about the project directory nor
    about any entry of the manifest. *)
Theorem instructions_list_all_without_queries
    (pl : string) (cwd : gmap string node) :
  pl <> "darwin" ->
  (forall f, f ∈ NEW_FILES -> ("   - " +:+ f) ∈ output (run pl cwd))
  /\ (forall path answer, EvExists path answer ∉ effects (run pl cwd)).
Proof.
  intros Hpl. rewrite output_run, effects_run.
  unfold main_lines, main_events, branch_lines, branch_events.
  rewrite (main_terminal_not_darwin pl cwd Hpl). split.
  - intros f Hf. unfold manual_lines.
    apply elem_of_app; right. apply elem_of_app; right.
    apply elem_of_app; right. apply elem_of_app; left.
    exact (list_elem_of_fmap_2 listing_line NEW_FILES f Hf).
  - intros path answer Hin.
    apply elem_of_app in Hin as [Hin|Hin];
      exact (written_not_query _ _ _ Hin).
Qed.

Lemma instructions_list_all_without_queries_witness :
  "linux" <> "darwin"
  /\ ((forall f, f ∈ NEW_FILES ->
        ("   - " +:+ f) ∈ output (run "linux" partial_checkout))
      /\ (forall path answer,
            EvExists path answer ∉ effects (run "linux" partial_checkout))).
Proof.
  assert (Hpl : "linux" <> "darwin") by discriminate.
  split; [exact Hpl|].
  exact (instructions_list_all_without_queries "linux" partial_checkout Hpl).
Defined.

(** C4. On [darwin] without an entry [MeTube.xcodeproj] in the working
    directory, the output has the not-found message and no line of the
    per-file report: no line carries [✓] or [✗], and no line ends with a path
    of [NEW_FILES]. *)
Theorem missing_project_omits_report (cwd : gmap string node) :
  cwd !! "MeTube.xcodeproj" = None ->
  "❌ MeTube.xcodeproj not found in current directory"
    ∈ output (run "darwin" cwd)
  /\ Forall (fun l => has_marker l = false) (output (run "darwin" cwd))
  /\ Forall (fun f => List.filter (ends_with f) (output (run "darwin" cwd)) = [])
       NEW_FILES.
Proof.
  intros Hproj. rewrite output_run.
  unfold main_lines, branch_lines. rewrite (main_terminal_missing _ Hproj).
  split; [|split].
  - apply elem_of_app; right. apply elem_of_app; right. apply list_elem_of_here.
  - by each_line.
  - by each_line.
Qed.

Lemma missing_project_omits_report_witness :
  (∅ : gmap string node) !! "MeTube.xcodeproj" = None
  /\ ("❌ MeTube.xcodeproj not found in current directory"
        ∈ output (run "darwin" ∅)
      /\ Forall (fun l => has_marker l = false) (output (run "darwin" ∅))
      /\ Forall (fun f => List.filter (ends_with f) (output (run "darwin" ∅)) = [])
           NEW_FILES).
Proof.
  assert (Hproj : (∅ : gmap string node) !! "MeTube.xcodeproj" = None)
    by reflexivity.
  split; [exact Hproj|].
  exact (missing_project_omits_report ∅ Hproj).
Defined.

(** C6. On any platform other than [darwin], the paths printed behind the
    listing marker are [NEW_FILES] itself: same entries, same order, nothing
    sorted, merged, dropped or added. *)
Theorem instructions_keep_declared_order (pl : string) (cwd : gmap string node) :
  pl <> "darwin" ->
  listed_paths (output (run pl cwd)) = NEW_FILES.
Proof.
  intros Hpl. rewrite output_run. unfold main_lines, branch_lines.
  rewrite (main_terminal_not_darwin pl cwd Hpl). reflexivity.
Qed.

Lemma instructions_keep_declared_order_witness :
  "win32" <> "darwin"
  /\ listed_paths (output (run "win32" project_as_directory)) = NEW_FILES.
Proof.
  assert (Hpl : "win32" <> "darwin") by discriminate.
  split; [exact Hpl|].
  exact (instructions_keep_declared_order "win32" project_as_directory Hpl).
Defined.

Lemma forallb_Forall_true {A} (p : A -> bool) (xs : list A) :
  forallb p xs = true -> Forall (fun x => p x = true) xs.
Proof.
  induction xs as [|x xs IH]; cbn [forallb]; intros H; [constructor|].
  apply andb_true_iff in H as [Hx Hxs]. constructor; auto.
Qed.

Lemma main_events_benign (pl : string) (cwd : gmap string node) :
  Forall (fun e => is_stdout_write e || is_exists_query e = true)
    (main_events pl cwd).
Proof.
  apply forallb_Forall_true. unfold main_events, branch_events.
  destruct (main_terminal pl cwd); reflexivity.
Qed.

(** C7. On every path through [main] the file system is left as it was: the
    entries after the run are the entries before it, every effect of the run
    is an existence query or a write to standard output, none creates, writes,
    deletes or renames a file, and a second run finds the same entries and
    leaves them too. *)
Theorem main_leaves_filesystem_unchanged (w : World) :
  fs (final (main w)) = fs w
  /\ (exists evs,
        trace (final (main w)) = trace w ++ evs
        /\ Forall (fun e => is_stdout_write e || is_exists_query e = true) evs
        /\ forall path, EvFsWrite path ∉ evs)
  /\ fs (final (main (final (main w)))) = fs w.
Proof.
  rewrite !main_eq. cbn [final fs trace platform].
  split; [done|]. split; [|done].
  exists (main_events (platform w) (fs w)).
  pose proof (main_events_benign (platform w) (fs w)) as Hall.
  split; [done|]. split; [done|].
  intros path Hin. rewrite Forall_forall in Hall.
  by specialize (Hall _ Hin).
Qed.

(** C8. The text written by [main] is a function of the platform identifier
    and of the answers of [os.path.exists]: two runs on the same platform, in
    working directories that answer alike for [MeTube.xcodeproj] and for the
    paths of [NEW_FILES], write the same text and end in the same state. *)
Theorem main_output_deterministic (pl : string) (cwd1 cwd2 : gmap string node) :
  Forall (fun path =>
            bool_decide (is_Some (cwd1 !! path))
            = bool_decide (is_Some (cwd2 !! path)))
    ("MeTube.xcodeproj" :: NEW_FILES) ->
  stdout (final (run pl cwd1)) = stdout (final (run pl cwd2))
  /\ exists t w1 w2,
       run pl cwd1 = Returned t w1 /\ run pl cwd2 = Returned t w2.
Proof.
  intros Hsame. apply Forall_cons in Hsame as [Hproj Hfiles].
  assert (Ht : main_terminal pl cwd1 = main_terminal pl cwd2).
  { unfold main_terminal, exists_in. by rewrite Hproj. }
  assert (Hlines : main_lines pl cwd1 = main_lines pl cwd2).
  { unfold main_lines, branch_lines. rewrite Ht.
    destruct (main_terminal pl cwd2); [done..|].
    assert (Hmap : map (report_line cwd1) NEW_FILES
                   = map (report_line cwd2) NEW_FILES).
    { apply List.map_ext_Forall. eapply Forall_impl; [exact Hfiles|].
      intros f Hf. unfold report_line, exists_in. by rewrite Hf. }
    unfold report_lines. by rewrite Hmap. }
  rewrite !run_eq. cbn [final stdout]. split.
  - by rewrite Hlines.
  - rewrite Ht. eauto.
Qed.

Lemma main_output_deterministic_witness :
  Forall (fun path =>
            bool_decide (is_Some (project_as_file !! path))
            = bool_decide (is_Some (project_as_directory !! path)))
    ("MeTube.xcodeproj" :: NEW_FILES)
  /\ (stdout (final (run "darwin" project_as_file))
      = stdout (final (run "darwin" project_as_directory))
      /\ exists t w1 w2,
           run "darwin" project_as_file = Returned t w1
           /\ run "darwin" project_as_directory = Returned t w2).
Proof.
  assert (Hsame :
    Forall (fun path =>
              bool_decide (is_Some (project_as_file !! path))
              = bool_decide (is_Some (project_as_directory !! path)))
      ("MeTube.xcodeproj" :: NEW_FILES))
    by (unfold NEW_FILES; each_line; vm_compute; reflexivity).
  split; [exact Hsame|].
  exact (main_output_deterministic "darwin" project_as_file
           project_as_directory Hsame).
Defined.

(** C10. The [subprocess] module is imported and never used: on every path
    through [main], each effect of the run is a write to standard output or an
    existence query, and no process is started. *)
Theorem main_spawns_no_process (pl : string) (cwd : gmap string node) :
  Forall (fun e => is_stdout_write e || is_exists_query e = true)
    (effects (run pl cwd))
  /\ forall argv, EvSpawn argv ∉ effects (run pl cwd).
Proof.
  rewrite effects_run. pose proof (main_events_benign pl cwd) as Hall.
  split; [done|]. intros argv Hin. rewrite Forall_forall in Hall.
  by specialize (Hall _ Hin).
Qed.

(** ** Further properties of [main] *)

Lemma queries_app (xs ys : list event) :
  queries (xs ++ ys) = queries xs ++ queries ys.
Proof. apply omap_app. Qed.

Lemma queries_written (ls : list string) : queries (map written ls) = [].
Proof. induction ls as [|l ls IH]; [done|]. exact IH. Qed.

Lemma queries_report (cwd : gmap string node) (files : list string) :
  queries (flat_map (fun f => [query cwd f; written (report_line cwd f)]) files)
  = map (fun f => (f, exists_in cwd f)) files.
Proof.
  induction files as [|f files IH]; [done|].
  cbn [flat_map map]. rewrite queries_app, IH. reflexivity.
Qed.

(** X1. The existence queries of a run, in order: none off [darwin]; on
    [darwin] first the gate [MeTube.xcodeproj], and only when it is present
    one query for each path of [NEW_FILES], in the declared order, each path
    asked once. *)
Theorem main_query_sequence (pl : string) (cwd : gmap string node) :
  queries (effects (run pl cwd))
  = match bool_decide (pl = "darwin"),
          bool_decide (is_Some (cwd !! "MeTube.xcodeproj")) with
    | false, _ => []
    | true, false => [ ("MeTube.xcodeproj", false) ]
    | true, true =>
        ("MeTube.xcodeproj", true)
        :: map (fun f => (f, bool_decide (is_Some (cwd !! f)))) NEW_FILES
    end.
Proof.
  rewrite effects_run. unfold main_events, branch_events.
  rewrite queries_app, queries_written, main_terminal_cases.
  change (bool_decide (is_Some (cwd !! "MeTube.xcodeproj")))
    with (exists_in cwd "MeTube.xcodeproj").
  case_bool_decide; [|apply queries_written].
  unfold query at 1 2.
  destruct (exists_in cwd "MeTube.xcodeproj").
  - change (?q :: map written report_header ++ ?r)
      with ([q] ++ map written report_header ++ r).
    rewrite !queries_app, !queries_written, queries_report. reflexivity.
  - change (?q :: map written missing_lines)
      with ([q] ++ map written missing_lines).
    rewrite queries_app, queries_written. reflexivity.
Qed.

Lemma main_lines_eighth (pl : string) (cwd : gmap string node) :
  main_lines pl cwd !! 7
  = Some match main_terminal pl cwd with
         | InstructionsOnly =>
             "⚠️  This script should be run on macOS with Xcode installed."
         | MissingProject =>
             "❌ MeTube.xcodeproj not found in current directory"
         | ReportEmitted =>
             "The following files will be added to the Xcode project:"
         end.
Proof.
  unfold main_lines, branch_lines. by destruct (main_terminal pl cwd).
Qed.

(** X2. The text tells the three ways of ending apart: two runs with the same
    output lines ended in the same terminal state. *)
Theorem output_determines_terminal
    (pl pl' : string) (cwd cwd' : gmap string node) :
  output (run pl cwd) = output (run pl' cwd') ->
  exists t w w',
    run pl cwd = Returned t w /\ run pl' cwd' = Returned t w'.
Proof.
  rewrite !output_run, !run_eq. intros Hout.
  pose proof (main_lines_eighth pl cwd) as H1.
  pose proof (main_lines_eighth pl' cwd') as H2.
  rewrite Hout, H2 in H1.
  assert (Ht : main_terminal pl cwd = main_terminal pl' cwd').
  { destruct (main_terminal pl cwd), (main_terminal pl' cwd');
      try reflexivity; discriminate H1. }
  rewrite Ht. eauto.
Qed.

Lemma output_determines_terminal_witness :
  output (run "linux" ∅) = output (run "win32" partial_checkout)
  /\ exists t w w',
       run "linux" ∅ = Returned t w
       /\ run "win32" partial_checkout = Returned t w'.
Proof.
  assert (Hout : output (run "linux" ∅) = output (run "win32" partial_checkout))
    by (vm_compute; reflexivity).
  split; [exact Hout|].
  exact (output_determines_terminal "linux" "win32" ∅ partial_checkout Hout).
Defined.

Lemma map_eq_Forall {A B} (h1 h2 : A -> B) (xs : list A) :
  map h1 xs = map h2 xs -> Forall (fun x => h1 x = h2 x) xs.
Proof.
  induction xs as [|x xs IH]; cbn [map]; intros H; [constructor|].
  injection H as Hx Hxs. constructor; auto.
Qed.

Lemma report_line_marker_inj (cwd1 cwd2 : gmap string node) (f : string) :
  report_line cwd1 f = report_line cwd2 f ->
  exists_in cwd1 f = exists_in cwd2 f.
Proof.
  unfold report_line.
  destruct (exists_in cwd1 f), (exists_in cwd2 f); intros H;
    try reflexivity; vm_compute in H; discriminate H.
Qed.

(** X3. The report loses nothing: when two [darwin] runs that both find
    [MeTube.xcodeproj] print the same lines, [os.path.exists] answered alike
    for every path of [NEW_FILES] in the two working directories. *)
Theorem report_reflects_answers (cwd1 cwd2 : gmap string node) :
  is_Some (cwd1 !! "MeTube.xcodeproj") ->
  is_Some (cwd2 !! "MeTube.xcodeproj") ->
  output (run "darwin" cwd1) = output (run "darwin" cwd2) ->
  Forall (fun f =>
            bool_decide (is_Some (cwd1 !! f)) = bool_decide (is_Some (cwd2 !! f)))
    NEW_FILES.
Proof.
  intros Hp1 Hp2. rewrite !output_run. unfold main_lines, branch_lines.
  rewrite (main_terminal_report _ Hp1), (main_terminal_report _ Hp2).
  unfold report_lines. intros Hout.
  do 3 apply app_inv_head in Hout. apply app_inv_tail in Hout.
  apply map_eq_Forall in Hout.
  eapply Forall_impl; [exact Hout|].
  intros f Hf. exact (report_line_marker_inj cwd1 cwd2 f Hf).
Qed.

Lemma report_reflects_answers_witness :
  is_Some (project_as_file !! "MeTube.xcodeproj")
  /\ is_Some (project_as_directory !! "MeTube.xcodeproj")
  /\ output (run "darwin" project_as_file)
     = output (run "darwin" project_as_directory)
  /\ Forall (fun f =>
               bool_decide (is_Some (project_as_file !! f))
               = bool_decide (is_Some (project_as_directory !! f)))
       NEW_FILES.
Proof.
  assert (Hp1 : is_Some (project_as_file !! "MeTube.xcodeproj"))
    by (vm_compute; eauto).
  assert (Hp2 : is_Some (project_as_directory !! "MeTube.xcodeproj"))
    by (vm_compute; eauto).
  assert (Hout : output (run "darwin" project_as_file)
                 = output (run "darwin" project_as_directory))
    by (vm_compute; reflexivity).
  repeat (split; [assumption|]).
  exact (report_reflects_answers project_as_file project_as_directory
           Hp1 Hp2 Hout).
Defined.

Example partial_checkout_counts :
  length (List.filter (contains "✓") (output (run "darwin" partial_checkout))) = 1
  /\ length (List.filter (contains "✗") (output (run "darwin" partial_checkout)))
     = 8.
Proof. split; vm_compute; reflexivity. Qed.

(** X5. Outside the report the text is fixed: two runs that end in the same
    state other than the report write the same text, whatever the platform
    identifiers and whatever the working directories hold. *)
Theorem text_outside_report_is_fixed
    (pl pl' : string) (cwd cwd' : gmap string node) (t : terminal) (w w' : World) :
  run pl cwd = Returned t w ->
  run pl' cwd' = Returned t w' ->
  t <> ReportEmitted ->
  stdout w = stdout w'.
Proof.
  rewrite !run_eq. intros H1 H2 Ht.
  injection H1 as Ht1 <-. injection H2 as Ht2 <-. cbn [stdout].
  unfold main_lines, branch_lines. rewrite Ht1, Ht2. by destruct t.
Qed.

Lemma text_outside_report_is_fixed_witness :
  run "linux" ∅ = Returned InstructionsOnly (final (run "linux" ∅))
  /\ run "win32" partial_checkout
     = Returned InstructionsOnly (final (run "win32" partial_checkout))
  /\ InstructionsOnly <> ReportEmitted
  /\ stdout (final (run "linux" ∅))
     = stdout (final (run "win32" partial_checkout)).
Proof.
  assert (H1 : run "linux" ∅ = Returned InstructionsOnly (final (run "linux" ∅)))
    by (vm_compute; reflexivity).
  assert (H2 : run "win32" partial_checkout
               = Returned InstructionsOnly (final (run "win32" partial_checkout)))
    by (vm_compute; reflexivity).
  assert (Ht : InstructionsOnly <> ReportEmitted) by discriminate.
  repeat (split; [assumption|]).
  exact (text_outside_report_is_fixed "linux" "win32" ∅ partial_checkout
           InstructionsOnly _ _ H1 H2 Ht).
Defined.

Lemma existsb_has_marker_report (cwd : gmap string node) :
  existsb has_marker (map (report_line cwd) NEW_FILES) = true.
Proof.
  pose proof (has_marker_report_line cwd) as Hall.
  unfold NEW_FILES in *. apply Forall_cons in Hall as [Hfirst _].
  cbn [map existsb]. by rewrite Hfirst.
Qed.

(** X6. The marks [✓] and [✗] belong to the report alone: some line of the
    output carries one exactly when the run is on [darwin] and finds
    [MeTube.xcodeproj]; the instructions and the not-found text carry none,
    whatever files exist. *)
Theorem marks_only_in_report (pl : string) (cwd : gmap string node) :
  existsb has_marker (output (run pl cwd))
  = bool_decide (pl = "darwin")
    && bool_decide (is_Some (cwd !! "MeTube.xcodeproj")).
Proof.
  rewrite output_run. unfold main_lines, branch_lines.
  rewrite main_terminal_cases.
  change (bool_decide (is_Some (cwd !! "MeTube.xcodeproj")))
    with (exists_in cwd "MeTube.xcodeproj").
  case_bool_decide; [|reflexivity].
  destruct (exists_in cwd "MeTube.xcodeproj"); [|reflexivity].
  unfold report_lines.
  rewrite !existsb_app, existsb_has_marker_report. reflexivity.
Qed.

(** X7. A run does not disturb the next one: [main] run twice in a row, from
    any world, ends both times in the same state and appends the same text
    twice, the text a fresh run writes. *)
Theorem second_run_repeats_first (w : World) :
  stdout (final (main (final (main w))))
  = (stdout w +:+ stdout (final (run (platform w) (fs w))))
    +:+ stdout (final (run (platform w) (fs w)))
  /\ exists t w1 w2, main w = Returned t w1 /\ main w1 = Returned t w2.
Proof.
  rewrite run_eq. split.
  - rewrite !main_eq. reflexivity.
  - do 3 eexists. split; [apply main_eq|]. rewrite main_eq. reflexivity.
Qed.

Lemma same_names_same_answers (cwd1 cwd2 : gmap string node) (path : string) :
  dom cwd1 = dom cwd2 -> exists_in cwd1 path = exists_in cwd2 path.
Proof.
  intros Hdom. unfold exists_in. apply bool_decide_ext.
  by rewrite <-!elem_of_dom, Hdom.
Qed.

(** X8. Only the names in the working directory matter, not what they name:
    two runs on the same platform in directories with the same entry names
    write the same text and end in the same state, be the entries files or
    directories. *)
Theorem entry_kinds_do_not_matter (pl : string) (cwd1 cwd2 : gmap string node) :
  dom cwd1 = dom cwd2 ->
  stdout (final (run pl cwd1)) = stdout (final (run pl cwd2))
  /\ exists t w1 w2,
       run pl cwd1 = Returned t w1 /\ run pl cwd2 = Returned t w2.
Proof.
  intros Hdom.
  assert (Ht : main_terminal pl cwd1 = main_terminal pl cwd2).
  { unfold main_terminal. by rewrite (same_names_same_answers _ _ _ Hdom). }
  assert (Hlines : main_lines pl cwd1 = main_lines pl cwd2).
  { unfold main_lines, branch_lines. rewrite Ht.
    destruct (main_terminal pl cwd2); [done..|].
    assert (Hmap : map (report_line cwd1) NEW_FILES
                   = map (report_line cwd2) NEW_FILES).
    { apply List.map_ext. intros f. unfold report_line.
      by rewrite (same_names_same_answers _ _ _ Hdom). }
    unfold report_lines. by rewrite Hmap. }
  rewrite !run_eq. cbn [final stdout]. rewrite Hlines, Ht.
  split; [reflexivity|]. do 3 eexists. split; reflexivity.
Qed.

Lemma entry_kinds_do_not_matter_witness :
  dom project_as_file = dom project_as_directory
  /\ (stdout (final (run "darwin" project_as_file))
      = stdout (final (run "darwin" project_as_directory))
      /\ exists t w1 w2,
           run "darwin" project_as_file = Returned t w1
           /\ run "darwin" project_as_directory = Returned t w2).
Proof.
  assert (Hdom : dom project_as_file = dom project_as_directory)
    by (vm_compute; reflexivity).
  split; [exact Hdom|].
  exact (entry_kinds_do_not_matter "darwin" project_as_file
           project_as_directory Hdom).
Defined.

(** ** The stream and the directory entries *)

Lemma main_on_utf8 : main_on CodecUtf8 = main.
Proof. reflexivity. Qed.

Lemma stat_view_lookup (max_links : nat) (d : gmap string dirent)
    (path : string) :
  stat_view max_links d !! path = os_stat max_links d path.
Proof.
  unfold stat_view. rewrite map_lookup_imap.
  destruct (d !! path) as [e|] eqn:He; cbn.
  - reflexivity.
  - destruct max_links; cbn [os_stat]; by rewrite He.
Qed.

Lemma not_elem_of_existsb (x : string) (l : list string) :
  existsb (String.eqb x) l = false -> x ∉ l.
Proof.
  induction l as [|y l IH]; cbn [existsb]; intros H Hin.
  - by apply elem_of_nil in Hin.
  - apply orb_false_iff in H as [Hy Hl].
    apply elem_of_cons in Hin as [->|Hin]; [|by apply IH].
    by rewrite String.eqb_refl in Hy.
Qed.

(** C9, as the code has it.  The gate is [os.path.exists], which asks
    [os.stat]: on [darwin] an entry [MeTube.xcodeproj] that resolves to
    anything, a regular file as well as a directory, directly or through
    links, opens it.  The run then asks about the gate first and is answered
    yes, prints the report header and the nine marked lines, and does not
    print the not-found message. *)
Theorem resolving_entry_opens_gate
    (max_links : nat) (d : gmap string dirent) (kind : node) :
  os_stat max_links d "MeTube.xcodeproj" = Some kind ->
  exists w',
    run "darwin" (stat_view max_links d) = Returned ReportEmitted w'
    /\ head (queries (trace w')) = Some ("MeTube.xcodeproj", true)
    /\ "The following files will be added to the Xcode project:"
         ∈ lines (stdout w')
    /\ ("❌ MeTube.xcodeproj not found in current directory"
          ∉ lines (stdout w'))
    /\ length (List.filter has_marker (lines (stdout w'))) = 9.
Proof.
  intros Hstat.
  assert (Hproj : is_Some (stat_view max_links d !! "MeTube.xcodeproj"))
    by (rewrite stat_view_lookup, Hstat; eauto).
  set (cwd := stat_view max_links d) in *.
  pose proof (main_terminal_report cwd Hproj) as Ht.
  assert (Hyes : exists_in cwd "MeTube.xcodeproj" = true)
    by (unfold exists_in; by rewrite bool_decide_eq_true_2).
  eexists. split; [rewrite run_eq, Ht; reflexivity|].
  cbn [stdout trace].
  rewrite (lines_unlines _ (main_lines_newline_free "darwin" cwd)).
  unfold main_events, branch_events, main_lines, branch_lines. rewrite Ht.
  unfold report_lines. repeat split.
  - rewrite queries_app, queries_written. unfold query at 1. by rewrite Hyes.
  - do 2 (apply elem_of_app; right). apply elem_of_app; left.
    apply list_elem_of_here.
  - apply not_elem_of_existsb. reflexivity.
  - rewrite !List.filter_app.
    rewrite (filter_all _ (map _ _))
      by apply Forall_fmap, has_marker_report_line.
    reflexivity.
Qed.

Lemma resolving_entry_opens_gate_witness :
  os_stat MAXSYMLINKS project_entry_file "MeTube.xcodeproj" = Some RegularFile
  /\ exists w',
       run "darwin" (stat_view MAXSYMLINKS project_entry_file)
       = Returned ReportEmitted w'
       /\ head (queries (trace w')) = Some ("MeTube.xcodeproj", true)
       /\ "The following files will be added to the Xcode project:"
            ∈ lines (stdout w')
       /\ ("❌ MeTube.xcodeproj not found in current directory"
             ∉ lines (stdout w'))
       /\ length (List.filter has_marker (lines (stdout w'))) = 9.
Proof.
  assert (Hstat : os_stat MAXSYMLINKS project_entry_file "MeTube.xcodeproj"
                  = Some RegularFile)
    by (vm_compute; reflexivity).
  split; [exact Hstat|].
  exact (resolving_entry_opens_gate MAXSYMLINKS project_entry_file RegularFile
           Hstat).
Defined.

Example link_to_file_opens_gate :
  os_stat MAXSYMLINKS project_entry_link "MeTube.xcodeproj" = Some RegularFile.
Proof. vm_compute. reflexivity. Qed.

(** C9 as it was stated fails: a link named [MeTube.xcodeproj] whose target
    is gone is an entry of that name, and not a directory, yet on [darwin] the
    run asks about it, is answered no, and ends in the missing-project state,
    not in the report. *)
Lemma dangling_link_keeps_gate_shut :
  project_entry_dangling !! "MeTube.xcodeproj" = Some (EntLink "backup.xcodeproj")
  /\ (exists w',
        run "darwin" (stat_view MAXSYMLINKS project_entry_dangling)
        = Returned MissingProject w'
        /\ queries (trace w') = [ ("MeTube.xcodeproj", false) ])
  /\ ~ (exists w',
          run "darwin" (stat_view MAXSYMLINKS project_entry_dangling)
          = Returned ReportEmitted w').
Proof.
  assert (Hrun : exists w',
            run "darwin" (stat_view MAXSYMLINKS project_entry_dangling)
            = Returned MissingProject w'
            /\ queries (trace w') = [ ("MeTube.xcodeproj", false) ]).
  { eexists. split; vm_compute; reflexivity. }
  split; [vm_compute; reflexivity|]. split; [exact Hrun|].
  intros [w' Hreport]. destruct Hrun as (w'' & Hmissing & _).
  rewrite Hmissing in Hreport. discriminate Hreport.
Qed.




Lemma filter_map_select {A B} (p : B -> bool) (q : A -> bool) (h g : A -> B)
    (xs : list A) :
  Forall (fun x => p (h x) = q x /\ (q x = true -> h x = g x)) xs ->
  List.filter p (map h xs) = map g (List.filter q xs).
Proof.
  induction 1 as [|x xs [Hp Hg] _ IH]; [done|].
  cbn [map List.filter]. rewrite Hp.
  destruct (q x); [|exact IH]. cbn [map]. by rewrite IH, Hg.
Qed.

Lemma check_lines (cwd : gmap string node) :
  Forall (fun f =>
            contains "✓" (report_line cwd f) = exists_in cwd f
            /\ (exists_in cwd f = true -> report_line cwd f = "  ✓ " +:+ f))
    NEW_FILES.
Proof.
  unfold NEW_FILES, report_line.
  each_line; destruct (exists_in cwd _); split; done.
Qed.

Lemma cross_lines (cwd : gmap string node) :
  Forall (fun f =>
            contains "✗" (report_line cwd f) = negb (exists_in cwd f)
            /\ (negb (exists_in cwd f) = true
                -> report_line cwd f = "  ✗ " +:+ f))
    NEW_FILES.
Proof.
  unfold NEW_FILES, report_line.
  each_line; destruct (exists_in cwd _); split; done.
Qed.

(** X4. In the report the marks sit on the path lines and nowhere else: the
    lines with [✓] are the lines made of [✓] and a path, one for each path of
    [NEW_FILES] that exists, in the declared order, and the lines with [✗]
    are those of the paths that do not exist.  So the marks of each kind are
    as many as the present and the absent paths. *)
Theorem report_marks_present_and_absent (cwd : gmap string node) :
  is_Some (cwd !! "MeTube.xcodeproj") ->
  List.filter (contains "✓") (output (run "darwin" cwd))
  = map (fun f => "  ✓ " +:+ f)
      (List.filter (fun f => bool_decide (is_Some (cwd !! f))) NEW_FILES)
  /\ List.filter (contains "✗") (output (run "darwin" cwd))
     = map (fun f => "  ✗ " +:+ f)
         (List.filter (fun f => negb (bool_decide (is_Some (cwd !! f))))
            NEW_FILES).
Proof.
  intros Hproj. rewrite output_run. unfold main_lines, branch_lines.
  rewrite (main_terminal_report _ Hproj). unfold report_lines.
  rewrite !List.filter_app. split.
  - rewrite (filter_map_select _ _ _ _ _ (check_lines cwd)).
    change (List.filter (contains "✓") report_footer) with (@nil string).
    rewrite app_nil_r. reflexivity.
  - rewrite (filter_map_select _ _ _ _ _ (cross_lines cwd)).
    change (List.filter (contains "✗") report_footer) with (@nil string).
    rewrite app_nil_r. reflexivity.
Qed.

Lemma report_marks_present_and_absent_witness :
  is_Some (partial_checkout !! "MeTube.xcodeproj")
  /\ (List.filter (contains "✓") (output (run "darwin" partial_checkout))
      = map (fun f => "  ✓ " +:+ f)
          (List.filter (fun f => bool_decide (is_Some (partial_checkout !! f)))
             NEW_FILES)
      /\ List.filter (contains "✗") (output (run "darwin" partial_checkout))
         = map (fun f => "  ✗ " +:+ f)
             (List.filter
                (fun f => negb (bool_decide (is_Some (partial_checkout !! f))))
                NEW_FILES)).
Proof.
  assert (Hproj : is_Some (partial_checkout !! "MeTube.xcodeproj"))
    by (vm_compute; eauto).
  split; [exact Hproj|].
  exact (report_marks_present_and_absent partial_checkout Hproj).
Defined.

(** ** Stepping through [main_on] up to the first refused text *)

Section Raises.
Context (pl : string) (cwd : gmap string node).






End Raises.


